(** * A shallow embedding of the transaction dashboard in [src/app.py]

    The module-level load (lines 20-27) and the callback [update_graphs]
    (lines 223-292) are modelled over the pandas 2.x semantics the code relies
    on: [pd.cut] with right-closed bins and [include_lowest=False],
    [groupby] with [sort=True], [dropna=True] and [observed=False] on
    categorical keys, [pd.Grouper(freq='M')] which emits every month-end bin
    between the first and the last observed month, and [sort_values] which,
    on the small group tables used here, is a stable sort.

    Numbers are rationals [Q] (no NaN or infinities in the numeric columns);
    a mean over an empty group is [None], pandas' NaN. *)

From Stdlib Require Import List String Ascii ZArith QArith Sorted Permutation Lia Lqa Bool OrderedTypeEx.
From Stdlib Require Finite.
Import ListNotations.
Open Scope string_scope.

(** ** Data model *)

Record date := mkDate { year : Z; month : Z; day : Z }.

(** One row of the loaded table (after preprocessing). [Product_Category]
    may be missing in the CSV (NaN), hence the option. *)
Record row := mkRow {
  Transaction_ID : string;
  CustomerID : string;
  Transaction_Date : date;
  Date : date;
  Product_Category : option string;
  Product_Description : string;
  Gender : string;
  Location : string;
  Tenure_Months : Q;
  Quantity : Q;
  Avg_Price : Q;
  Online_Spend : Q;
  Offline_Spend : Q;
  Discount_pct : Q;
  Coupon_Status : string;
  Total_Spend : Q;
  Revenue : Q
}.

(** A cell value, as [to_dict('records')] exposes it. *)
Inductive value :=
| VStr (s : string)
| VNum (q : Q)
| VDate (d : date)
| VNaN.

Definition value_eqb (a b : value) : bool :=
  match a, b with
  | VStr s, VStr t => String.eqb s t
  | VNum p, VNum q => Qeq_bool p q
  | VDate d, VDate e =>
      Z.eqb (year d) (year e) && Z.eqb (month d) (month e) && Z.eqb (day d) (day e)
  | VNaN, VNaN => true
  | _, _ => false
  end.

(** The columns of the table after the preprocessing step (lines 20-27),
    for a CSV whose header has exactly the fifteen columns the code reads:
    these plus the two derived columns [Total_Spend] and [Revenue]. *)
Definition base_columns : list string :=
  ["Transaction_ID"; "CustomerID"; "Transaction_Date"; "Date";
   "Product_Category"; "Product_Description"; "Gender"; "Location";
   "Tenure_Months"; "Quantity"; "Avg_Price"; "Online_Spend";
   "Offline_Spend"; "Discount_pct"; "Coupon_Status"; "Total_Spend"; "Revenue"].

Definition base_get (r : row) (c : string) : value :=
  if String.eqb c "Transaction_ID" then VStr (Transaction_ID r)
  else if String.eqb c "CustomerID" then VStr (CustomerID r)
  else if String.eqb c "Transaction_Date" then VDate (Transaction_Date r)
  else if String.eqb c "Date" then VDate (Date r)
  else if String.eqb c "Product_Category" then
    match Product_Category r with Some s => VStr s | None => VNaN end
  else if String.eqb c "Product_Description" then VStr (Product_Description r)
  else if String.eqb c "Gender" then VStr (Gender r)
  else if String.eqb c "Location" then VStr (Location r)
  else if String.eqb c "Tenure_Months" then VNum (Tenure_Months r)
  else if String.eqb c "Quantity" then VNum (Quantity r)
  else if String.eqb c "Avg_Price" then VNum (Avg_Price r)
  else if String.eqb c "Online_Spend" then VNum (Online_Spend r)
  else if String.eqb c "Offline_Spend" then VNum (Offline_Spend r)
  else if String.eqb c "Discount_pct" then VNum (Discount_pct r)
  else if String.eqb c "Coupon_Status" then VStr (Coupon_Status r)
  else if String.eqb c "Total_Spend" then VNum (Total_Spend r)
  else if String.eqb c "Revenue" then VNum (Revenue r)
  else VNaN.

(** A data frame: its column names, its rows (each with the cells of the
    columns added after loading) and the category set of the categorical
    [Location] column, which filtering keeps. *)
Record frame := mkFrame {
  columns : list string;
  fr_rows : list (row * list (string * value));
  loc_cats : list string
}.

(** The loaded table [df]. *)
Record table := mkTable { t_rows : list row; t_loc_cats : list string }.

Definition initial_frame (t : table) : frame :=
  mkFrame base_columns (map (fun r => (r, [])) (t_rows t)) (t_loc_cats t).

Definition get (x : row * list (string * value)) (c : string) : value :=
  match find (fun p => String.eqb (fst p) c) (snd x) with
  | Some (_, v) => v
  | None => base_get (fst x) c
  end.

(** ** Sorting and grouping helpers *)

Fixpoint insert_uniq (x : string) (l : list string) : list string :=
  match l with
  | [] => [x]
  | y :: t =>
      match String.compare x y with
      | Lt => x :: l
      | Eq => l
      | Gt => y :: insert_uniq x t
      end
  end.

(** Sorted distinct values, as [sorted(s.unique())] and the group keys of
    [groupby(sort=True)]. *)
Definition sort_uniq (l : list string) : list string := fold_right insert_uniq [] l.

Definition Qsum (l : list Q) : Q := fold_right Qplus 0 l.

(** [Series.mean]: NaN ([None]) on an empty series. *)
Definition Qmean (l : list Q) : option Q :=
  match l with
  | [] => None
  | _ => Some (Qsum l / inject_Z (Z.of_nat (List.length l)))
  end.

(** [sort_values(ascending=False)]: stable descending sort by the value. *)
Fixpoint insert_desc {K} (x : K * Q) (l : list (K * Q)) : list (K * Q) :=
  match l with
  | [] => [x]
  | y :: t => if Qle_bool (snd y) (snd x) then x :: l else y :: insert_desc x t
  end.

Definition sort_desc {K} (l : list (K * Q)) : list (K * Q) := fold_right insert_desc [] l.

(** ** Loading (lines 20-27) *)

(** A CSV row before preprocessing; an unparsable date is [None]. *)
Record raw_row := mkRaw {
  raw_Transaction_ID : string;
  raw_CustomerID : string;
  raw_Transaction_Date : option date;
  raw_Date : option date;
  raw_Product_Category : option string;
  raw_Product_Description : string;
  raw_Gender : string;
  raw_Location : string;
  raw_Tenure_Months : Q;
  raw_Quantity : Q;
  raw_Avg_Price : Q;
  raw_Online_Spend : Q;
  raw_Offline_Spend : Q;
  raw_Discount_pct : Q;
  raw_Coupon_Status : string
}.

Definition is_upper (c : ascii) : bool :=
  let n := nat_of_ascii c in (65 <=? n)%nat && (n <=? 90)%nat.
Definition is_lower (c : ascii) : bool :=
  let n := nat_of_ascii c in (97 <=? n)%nat && (n <=? 122)%nat.
Definition to_upper (c : ascii) : ascii :=
  if is_lower c then ascii_of_nat (nat_of_ascii c - 32) else c.
Definition to_lower (c : ascii) : ascii :=
  if is_upper c then ascii_of_nat (nat_of_ascii c + 32) else c.

(** [str.title] on ASCII text: a letter is upper-cased after a non-letter
    and lower-cased after a letter. *)
Fixpoint title_aux (prev_cased : bool) (s : string) : string :=
  match s with
  | EmptyString => EmptyString
  | String c s' =>
      String (if prev_cased then to_lower c else to_upper c)
             (title_aux (is_upper c || is_lower c) s')
  end.

Definition title (s : string) : string := title_aux false s.

(** [pd.to_datetime] on both date columns (raising on an unparsable value),
    title-casing of [Location], then the two derived columns. *)
Definition load (raw : list raw_row) : option table :=
  if forallb (fun x => match raw_Transaction_Date x, raw_Date x with
                       | Some _, Some _ => true | _, _ => false end) raw
  then
    let rows := flat_map (fun x =>
      match raw_Transaction_Date x, raw_Date x with
      | Some td, Some d =>
          [mkRow (raw_Transaction_ID x) (raw_CustomerID x) td d
             (raw_Product_Category x) (raw_Product_Description x)
             (raw_Gender x) (title (raw_Location x)) (raw_Tenure_Months x)
             (raw_Quantity x) (raw_Avg_Price x) (raw_Online_Spend x)
             (raw_Offline_Spend x) (raw_Discount_pct x) (raw_Coupon_Status x)
             (raw_Offline_Spend x + raw_Online_Spend x)
             (raw_Quantity x * raw_Avg_Price x)]
      | _, _ => []
      end) raw in
    Some (mkTable rows (sort_uniq (map Location rows)))
  else None.

(** ** [pd.cut] (lines 259-261 and 280-282) *)

Inductive bound := Fin (q : Q) | PInf.

(** [lo < x] and [x <= hi] for a finite [x]. *)
Definition above (lo : bound) (x : Q) : bool :=
  match lo with Fin q => negb (Qle_bool x q) | PInf => false end.
Definition below (x : Q) (hi : bound) : bool :=
  match hi with Fin q => Qle_bool x q | PInf => true end.

(** [pd.cut(x, bins, labels)] with its defaults [right=True],
    [include_lowest=False]: the label of the bin [(bins[i], bins[i+1]]]
    holding [x], NaN ([None]) when there is none. *)
Fixpoint cut (bins : list bound) (labels : list string) (x : Q) : option string :=
  match bins, labels with
  | lo :: ((hi :: _) as rest), l :: ls =>
      if above lo x && below x hi then Some l else cut rest ls x
  | _, _ => None
  end.

Definition tenure_bins : list bound :=
  [Fin 0; Fin 6; Fin 12; Fin 24; Fin 36; PInf].
Definition tenure_labels : list string := ["0-6"; "7-12"; "13-24"; "25-36"; "36+"].
Definition discount_bins : list bound :=
  [Fin 0; Fin 5; Fin 10; Fin 15; Fin 20; Fin 100].
Definition discount_labels : list string := ["0-5%"; "5-10%"; "10-15%"; "15-20%"; "20%+"].

Definition label_value (o : option string) : value :=
  match o with Some l => VStr l | None => VNaN end.

Definition tenure_group (x : row * list (string * value)) : value :=
  label_value (cut tenure_bins tenure_labels (Tenure_Months (fst x))).
Definition discount_group (x : row * list (string * value)) : value :=
  label_value (cut discount_bins discount_labels (Discount_pct (fst x))).

(** ** Frame operations *)

(** [df[name] = ...]: a new column is appended to the column list. *)
Definition set_column (name : string) (f : row * list (string * value) -> value)
    (fr : frame) : frame :=
  mkFrame (if existsb (String.eqb name) (columns fr) then columns fr
           else columns fr ++ [name])
          (map (fun x => (fst x, (name, f x) :: snd x)) (fr_rows fr))
          (loc_cats fr).

(** Boolean-mask indexing [df[mask]]: rows kept in order, dtypes kept. *)
Definition mask_frame (p : row -> bool) (fr : frame) : frame :=
  mkFrame (columns fr) (filter (fun x => p (fst x)) (fr_rows fr)) (loc_cats fr).

(** [Series.isin]: a missing category matches none of the dropdown values. *)
Definition category_isin (categories : list string) (r : row) : bool :=
  match Product_Category r with
  | Some c => existsb (String.eqb c) categories
  | None => false
  end.
Definition location_isin (locations : list string) (r : row) : bool :=
  existsb (String.eqb (Location r)) locations.

(** ** The aggregates *)

Definition month_key (d : date) : Z := (year d * 12 + (month d - 1))%Z.
Definition month_of_key (k : Z) : Z * Z := ((k / 12)%Z, (k mod 12 + 1)%Z).

Definition Zrange (lo hi : Z) : list Z :=
  map (fun i => (lo + Z.of_nat i)%Z) (seq 0 (Z.to_nat (hi - lo + 1)%Z)).

(** [groupby(pd.Grouper(key='Transaction_Date', freq='M'))['Revenue'].sum()]:
    one month-end bin for every month from the first to the last month
    present, each with its (possibly empty) sum. *)
Definition monthly_sales (rows : list row) : list ((Z * Z) * Q) :=
  match map (fun r => month_key (Transaction_Date r)) rows with
  | [] => []
  | k :: ks =>
      let lo := fold_right Z.min k ks in
      let hi := fold_right Z.max k ks in
      map (fun m => (month_of_key m,
                     Qsum (map Revenue (filter (fun r => Z.eqb (month_key (Transaction_Date r)) m) rows))))
          (Zrange lo hi)
  end.

Definition keys_of (key : row -> option string) (rows : list row) : list string :=
  sort_uniq (flat_map (fun r => match key r with Some k => [k] | None => [] end) rows).

Definition group_rows (key : row -> option string) (rows : list row) (k : string) : list row :=
  filter (fun r => match key r with Some k' => String.eqb k' k | None => false end) rows.

(** [groupby(key)[metric].sum()] on an object column (sorted keys, NaN
    keys dropped). *)
Definition group_sum (key : row -> option string) (metric : row -> Q) (rows : list row)
    : list (string * Q) :=
  map (fun k => (k, Qsum (map metric (group_rows key rows k)))) (keys_of key rows).

Definition group_mean (key : row -> option string) (metric : row -> Q) (rows : list row)
    : list (string * option Q) :=
  map (fun k => (k, Qmean (map metric (group_rows key rows k)))) (keys_of key rows).

Definition category_revenue (rows : list row) : list (string * Q) :=
  sort_desc (group_sum Product_Category Revenue rows).

Definition top_products (rows : list row) : list (string * Q) :=
  firstn 10 (sort_desc (group_sum (fun r => Some (Product_Description r)) Quantity rows)).

Definition gender_spending (rows : list row) : list (string * (Q * Q)) :=
  map (fun k => let g := group_rows (fun r => Some (Gender r)) rows k in
                (k, (Qsum (map Online_Spend g), Qsum (map Offline_Spend g))))
      (keys_of (fun r => Some (Gender r)) rows).

(** [groupby(col)[metric].mean()] on a categorical column built by [pd.cut]:
    with [observed=False] every label appears, NaN for an empty group. *)
Definition label_mean (col : string) (labels : list string) (metric : row -> Q)
    (rows : list (row * list (string * value))) : list (string * option Q) :=
  map (fun l => (l, Qmean (map (fun x => metric (fst x))
                             (filter (fun x => value_eqb (get x col) (VStr l)) rows))))
      labels.

(** [groupby('Location')['Total_Spend'].sum()] on the categorical
    [Location]: every category of the loaded table appears. *)
Definition location_spending (fr : frame) : list (string * Q) :=
  sort_desc (map (fun c => (c, Qsum (map (fun x => Total_Spend (fst x))
                                      (filter (fun x => String.eqb (Location (fst x)) c)
                                              (fr_rows fr)))))
                 (loc_cats fr)).

Definition coupon_effect (rows : list row) : list (string * option Q) :=
  group_mean (fun r => Some (Coupon_Status r)) Revenue rows.

Definition record := list (string * value).

(** [head(100).to_dict('records')]. *)
Definition preview (fr : frame) : list record :=
  map (fun x => map (fun c => (c, get x c)) (columns fr)) (firstn 100 (fr_rows fr)).

(** ** The callback [update_graphs] (lines 223-292)

    Python objects live in a store: object [i] is the [i]-th frame. Indexing
    and [copy] allocate a new frame; [df[col] = ...] updates one in place. *)

Definition store := list frame.
Definition M (A : Type) : Type := store -> A * store.

Definition ret {A} (a : A) : M A := fun st => (a, st).
Definition bind {A B} (m : M A) (k : A -> M B) : M B :=
  fun st => let (a, st') := m st in k a st'.

Notation "x <- c1 ;; c2" := (bind c1 (fun x => c2))
  (at level 61, c1 at next level, right associativity).
Notation "c1 ;;; c2" := (bind c1 (fun _ => c2))
  (at level 61, right associativity).

Definition empty_frame : frame := mkFrame [] [] [].

Definition read (i : nat) : M frame := fun st => (nth i st empty_frame, st).
Definition alloc (f : frame) : M nat := fun st => (List.length st, (st ++ [f])%list).

Fixpoint replace_nth {A} (n : nat) (x : A) (l : list A) : list A :=
  match n, l with
  | O, _ :: t => x :: t
  | S n', y :: t => y :: replace_nth n' x t
  | _, [] => []
  end.

Definition write (i : nat) (f : frame) : M unit := fun st => (tt, replace_nth i f st).

(** The nine outputs; the figures are represented by the tables they plot. *)
Record bundle := mkBundle {
  sales_trend : list ((Z * Z) * Q);
  category_fig : list (string * Q);
  products_fig : list (string * Q);
  gender_fig : list (string * (Q * Q));
  tenure_fig : list (string * option Q);
  location_fig : list (string * Q);
  coupon_fig : list (string * option Q);
  discount_fig : list (string * option Q);
  table_data : list record
}.

Definition rows_of (fr : frame) : list row := map fst (fr_rows fr).

(** Lines 233-289, on the object [filtered_df]. *)
Definition make_graphs (filtered_df : nat) : M bundle :=
  f <- read filtered_df ;;
  let monthly := monthly_sales (rows_of f) in
  let category := category_revenue (rows_of f) in
  let products := top_products (rows_of f) in
  let gender := gender_spending (rows_of f) in
  write filtered_df (set_column "Tenure_Group" tenure_group f) ;;;
  f <- read filtered_df ;;
  let tenure := label_mean "Tenure_Group" tenure_labels Total_Spend (fr_rows f) in
  let location := location_spending f in
  let coupon := coupon_effect (rows_of f) in
  write filtered_df (set_column "Discount_Group" discount_group f) ;;;
  f <- read filtered_df ;;
  let discount := label_mean "Discount_Group" discount_labels Revenue (fr_rows f) in
  ret (mkBundle monthly category products gender tenure location coupon discount
                (preview f)).

Definition update_graphs (df : nat) (categories locations : list string) : M bundle :=
  d <- read df ;;
  filtered_df <- alloc d ;;
  filtered_df <- (match categories with
                  | [] => ret filtered_df
                  | _ => f <- read filtered_df ;;
                         alloc (mask_frame (category_isin categories) f)
                  end) ;;
  filtered_df <- (match locations with
                  | [] => ret filtered_df
                  | _ => f <- read filtered_df ;;
                         alloc (mask_frame (location_isin locations) f)
                  end) ;;
  make_graphs filtered_df.

(** The dashboard: [df] is object 0 of a store holding the loaded table. *)
Definition aggregate (t : table) (categories locations : list string) : bundle :=
  fst (update_graphs 0 categories locations [initial_frame t]).

(** The rows the callback keeps (lines 225-231). *)
Definition filtered_view (t : table) (categories locations : list string) : list row :=
  let rows := t_rows t in
  let rows := match categories with [] => rows | _ => filter (category_isin categories) rows end in
  match locations with [] => rows | _ => filter (location_isin locations) rows end.

(** The dropdown option lists (lines 75 and 83). *)
Definition category_options (t : table) : list string :=
  sort_uniq (flat_map (fun r => match Product_Category r with Some c => [c] | None => [] end)
                      (t_rows t)).
Definition location_options (t : table) : list string :=
  sort_uniq (map Location (t_rows t)).

(** The outputs as a pure function of the filtered frame. *)
Definition bundle_of (f : frame) : bundle :=
  let f1 := set_column "Tenure_Group" tenure_group f in
  let f2 := set_column "Discount_Group" discount_group f1 in
  mkBundle (monthly_sales (rows_of f)) (category_revenue (rows_of f))
           (top_products (rows_of f)) (gender_spending (rows_of f))
           (label_mean "Tenure_Group" tenure_labels Total_Spend (fr_rows f1))
           (location_spending f1) (coupon_effect (rows_of f1))
           (label_mean "Discount_Group" discount_labels Revenue (fr_rows f2))
           (preview f2).

Definition filter_frame (categories locations : list string) (f : frame) : frame :=
  let f := match categories with [] => f | _ => mask_frame (category_isin categories) f end in
  match locations with [] => f | _ => mask_frame (location_isin locations) f end.

(** ** Store lemmas *)

Lemma nth_app_last {A} (l : list A) (x d : A) : nth (List.length l) (l ++ [x]) d = x.
Proof. rewrite app_nth2 by lia. now rewrite Nat.sub_diag. Qed.

Lemma nth_error_app_lt {A} (l : list A) (x : A) j :
  (j < List.length l)%nat -> nth_error (l ++ [x]) j = nth_error l j.
Proof. intros; now apply nth_error_app1. Qed.

Lemma replace_nth_length {A} i (x : A) l : List.length (replace_nth i x l) = List.length l.
Proof. revert i; induction l; intros [|i]; simpl; auto. Qed.

Lemma nth_replace_same {A} i (x d : A) l :
  (i < List.length l)%nat -> nth i (replace_nth i x l) d = x.
Proof.
  revert i; induction l; intros [|i] H; simpl in *; try lia; auto.
  apply IHl; lia.
Qed.

Lemma nth_error_replace_other {A} i j (x : A) l :
  i <> j -> nth_error (replace_nth i x l) j = nth_error l j.
Proof.
  revert i j; induction l; intros [|i] [|j] H; simpl; auto; try congruence.
  all: apply IHl; congruence.
Qed.

Lemma make_graphs_spec (i : nat) (st : store) :
  (i < List.length st)%nat ->
  fst (make_graphs i st) = bundle_of (nth i st empty_frame) /\
  (forall j, j <> i -> nth_error (snd (make_graphs i st)) j = nth_error st j).
Proof.
  intros Hi. unfold make_graphs, bind, read, write, ret; cbn.
  rewrite !nth_replace_same by (rewrite ?replace_nth_length; auto).
  split; [reflexivity|].
  intros j Hj. rewrite !nth_error_replace_other by congruence. reflexivity.
Qed.

Lemma update_graphs_spec (df : nat) (categories locations : list string)
    (st : store) (f : frame) :
  nth_error st df = Some f ->
  fst (update_graphs df categories locations st) = bundle_of (filter_frame categories locations f) /\
  nth_error (snd (update_graphs df categories locations st)) df = Some f.
Proof.
  intros Hf.
  assert (Hlt : (df < List.length st)%nat) by (apply nth_error_Some; congruence).
  assert (Hn : nth df st empty_frame = f) by (apply nth_error_nth; exact Hf).
  unfold update_graphs, bind, read, alloc, ret; cbn [fst snd].
  rewrite Hn.
  destruct categories as [|c cs], locations as [|l ls]; cbn [fst snd];
    rewrite ?nth_app_last;
    match goal with
    | |- context [make_graphs ?i ?s] =>
        assert (Hi : (i < List.length s)%nat)
          by (rewrite ?length_app; simpl; lia);
        destruct (make_graphs_spec i s Hi) as [H1 H2]
    end;
    (split; [rewrite H1; rewrite ?nth_app_last; reflexivity
            |rewrite H2 by (rewrite ?length_app; simpl; lia);
             rewrite ?nth_error_app_lt by (rewrite ?length_app; simpl; lia); exact Hf]).
Qed.

(** ** From [aggregate] to the filtered rows *)

Lemma aggregate_bundle (t : table) (categories locations : list string) :
  aggregate t categories locations =
  bundle_of (filter_frame categories locations (initial_frame t)).
Proof.
  unfold aggregate.
  now destruct (update_graphs_spec 0 categories locations [initial_frame t]
                  (initial_frame t) eq_refl) as [H _].
Qed.

Lemma filter_pair_map (p : row -> bool) (l : list row) :
  filter (fun x => p (fst x)) (map (fun r => (r, @nil (string * value))) l) =
  map (fun r => (r, [])) (filter p l).
Proof. induction l as [|a l IH]; simpl; [reflexivity|]. destruct (p a); simpl; now rewrite IH. Qed.

Lemma filter_frame_initial (t : table) (categories locations : list string) :
  filter_frame categories locations (initial_frame t) =
  mkFrame base_columns (map (fun r => (r, [])) (filtered_view t categories locations))
          (t_loc_cats t).
Proof.
  unfold filter_frame, filtered_view, initial_frame, mask_frame.
  destruct categories, locations; cbn [columns fr_rows loc_cats];
    rewrite ?filter_pair_map; reflexivity.
Qed.

Lemma rows_of_pairs (l : list row) : map fst (map (fun r => (r, @nil (string * value))) l) = l.
Proof. rewrite map_map; apply map_id. Qed.

(** ** Months of the trend *)

Lemma In_Zrange (lo hi m : Z) : In m (Zrange lo hi) <-> (lo <= m <= hi)%Z.
Proof.
  unfold Zrange; rewrite in_map_iff; split.
  - intros [i [<- Hi]]; apply in_seq in Hi; lia.
  - intros H; exists (Z.to_nat (m - lo)); split; [lia|].
    apply in_seq; lia.
Qed.

Lemma month_of_key_inj (k k' : Z) : month_of_key k = month_of_key k' -> k = k'.
Proof.
  unfold month_of_key; intros H; injection H as H1 H2.
  rewrite (Z.div_mod k 12), (Z.div_mod k' 12) by lia. lia.
Qed.

Lemma fold_min_spec (k : Z) (ks : list Z) :
  In (fold_right Z.min k ks) (k :: ks) /\ forall x, In x (k :: ks) -> (fold_right Z.min k ks <= x)%Z.
Proof.
  induction ks as [|a ks [IH1 IH2]]; simpl.
  - split; [auto|]. intros x [<-|[]]; lia.
  - split.
    + destruct (Z.min_spec a (fold_right Z.min k ks)) as [[_ ->]|[_ ->]]; simpl; auto.
      destruct IH1 as [<-|IH1]; auto.
    + intros x Hx.
      simpl in Hx; destruct Hx as [Hx|[Hx|Hx]]; subst;
        [specialize (IH2 _ (or_introl eq_refl)) | |
         specialize (IH2 _ (or_intror Hx))]; lia.
Qed.

Lemma fold_max_spec (k : Z) (ks : list Z) :
  In (fold_right Z.max k ks) (k :: ks) /\ forall x, In x (k :: ks) -> (x <= fold_right Z.max k ks)%Z.
Proof.
  induction ks as [|a ks [IH1 IH2]]; simpl.
  - split; [auto|]. intros x [<-|[]]; lia.
  - split.
    + destruct (Z.max_spec a (fold_right Z.max k ks)) as [[_ ->]|[_ ->]]; simpl; auto.
      destruct IH1 as [<-|IH1]; auto.
    + intros x Hx.
      simpl in Hx; destruct Hx as [Hx|[Hx|Hx]]; subst;
        [specialize (IH2 _ (or_introl eq_refl)) | |
         specialize (IH2 _ (or_intror Hx))]; lia.
Qed.

Lemma monthly_sales_spec (rows : list row) (m : Z) (s : Q) :
  In (month_of_key m, s) (monthly_sales rows) <->
  (exists r1 r2, In r1 rows /\ In r2 rows /\
     (month_key (Transaction_Date r1) <= m <= month_key (Transaction_Date r2))%Z) /\
  s = Qsum (map Revenue (filter (fun r => Z.eqb (month_key (Transaction_Date r)) m) rows)).
Proof.
  unfold monthly_sales.
  destruct (map (fun r => month_key (Transaction_Date r)) rows) as [|k ks] eqn:E.
  - apply map_eq_nil in E; subst rows. simpl.
    split; [intros []|intros [[r1 [r2 [[] _]]] _]].
  - destruct (fold_min_spec k ks) as [Hmin1 Hmin2].
    destruct (fold_max_spec k ks) as [Hmax1 Hmax2].
    rewrite <- E in Hmin1, Hmin2, Hmax1, Hmax2.
    rewrite in_map_iff. split.
    + intros [m' [Heq Hin]].
      pose proof (f_equal fst Heq) as Hk; pose proof (f_equal snd Heq) as Hs.
      cbn [fst snd] in Hk, Hs.
      apply month_of_key_inj in Hk; subst m'.
      apply In_Zrange in Hin.
      apply in_map_iff in Hmin1 as [r1 [Hr1 Hin1]].
      apply in_map_iff in Hmax1 as [r2 [Hr2 Hin2]].
      split; [|now rewrite <- Hs].
      exists r1, r2; repeat split; auto; lia.
    + intros [[r1 [r2 [Hin1 [Hin2 Hle]]]] Hs].
      exists m; split; [now rewrite Hs|].
      apply In_Zrange.
      assert (H1 := Hmin2 _ (in_map (fun r => month_key (Transaction_Date r)) _ _ Hin1)).
      assert (H2 := Hmax2 _ (in_map (fun r => month_key (Transaction_Date r)) _ _ Hin2)).
      simpl in H1, H2. lia.
Qed.

(** ** The descending sort *)

Definition desc_by_value {K} (a b : K * Q) : Prop := (snd b <= snd a)%Q.

Lemma insert_desc_hd {K} (x y : K * Q) (l : list (K * Q)) :
  HdRel desc_by_value y l -> desc_by_value y x -> HdRel desc_by_value y (insert_desc x l).
Proof.
  intros Hh Hyx. destruct l as [|z l]; simpl.
  - now constructor.
  - destruct (Qle_bool (snd z) (snd x)); constructor; auto.
    now inversion Hh.
Qed.

Lemma insert_desc_sorted {K} (x : K * Q) (l : list (K * Q)) :
  Sorted desc_by_value l -> Sorted desc_by_value (insert_desc x l).
Proof.
  induction l as [|y l IH]; intros Hs; simpl.
  - repeat constructor.
  - destruct (Qle_bool (snd y) (snd x)) eqn:E.
    + constructor; [exact Hs|]. constructor. unfold desc_by_value.
      now apply Qle_bool_iff.
    + inversion Hs as [|? ? Hs' Hh]; subst. constructor; [now apply IH|].
      apply insert_desc_hd; [exact Hh|]. unfold desc_by_value.
      apply Qlt_le_weak, Qnot_le_lt. intros Hle.
      apply Qle_bool_iff in Hle; congruence.
Qed.

Lemma sort_desc_sorted {K} (l : list (K * Q)) : Sorted desc_by_value (sort_desc l).
Proof. induction l; simpl; [constructor|]. now apply insert_desc_sorted. Qed.

Lemma insert_desc_perm {K} (x : K * Q) (l : list (K * Q)) :
  Permutation (insert_desc x l) (x :: l).
Proof.
  induction l as [|y l IH]; simpl; [reflexivity|].
  destruct (Qle_bool (snd y) (snd x)); [reflexivity|].
  etransitivity; [apply perm_skip, IH|apply perm_swap].
Qed.

Lemma sort_desc_perm {K} (l : list (K * Q)) : Permutation (sort_desc l) l.
Proof.
  induction l; simpl; [reflexivity|].
  etransitivity; [apply insert_desc_perm|]. now apply perm_skip.
Qed.

Lemma map_filter_fst {A B} (f : row -> A) (p : row -> bool) (L : list (row * B)) :
  map (fun x => f (fst x)) (filter (fun x => p (fst x)) L) = map f (filter p (map fst L)).
Proof. induction L as [|[r e] L IH]; simpl; [reflexivity|]. destruct (p r); simpl; now rewrite IH. Qed.

Lemma rows_of_set_column (n : string) (g : row * list (string * value) -> value) (f : frame) :
  rows_of (set_column n g f) = rows_of f.
Proof. unfold rows_of, set_column; simpl. now rewrite map_map. Qed.

Lemma location_spending_rows (f : frame) :
  location_spending f =
  sort_desc (map (fun c => (c, Qsum (map Total_Spend
                                 (filter (fun r => String.eqb (Location r) c) (rows_of f)))))
                 (loc_cats f)).
Proof.
  unfold location_spending. f_equal. apply map_ext; intros c.
  now rewrite (map_filter_fst Total_Spend (fun r => String.eqb (Location r) c)).
Qed.

Lemma rows_filter_frame (t : table) (categories locations : list string) :
  rows_of (filter_frame categories locations (initial_frame t)) =
  filtered_view t categories locations.
Proof. rewrite filter_frame_initial; unfold rows_of; simpl. apply rows_of_pairs. Qed.

(** ** Sample inputs *)

Definition sample_row (cat : option string) (loc : string) (y m : Z)
    (tenure disc price : Q) : row :=
  mkRow "T1" "C1" (mkDate y m 15) (mkDate y m 15) cat "Nest" "F" loc tenure 1 price
        1 2 disc "Used" 3 price.

(** A January row (category B, tenure 0, discount 0) and a March row
    (category A) with the same revenue. *)
Definition t_gap : table :=
  mkTable [sample_row (Some "B") "Chicago" 2020 1 0 0 5;
           sample_row (Some "A") "California" 2020 3 7 5 5]
          ["California"; "Chicago"].

(** ** Claims *)

(** C1 (counterexample): the February bin is emitted with a zero sum though
    no row falls in February. *)
Lemma C1_gap_month_emitted :
  (forall r, In r (filtered_view t_gap [] []) ->
             month_key (Transaction_Date r) <> month_key (mkDate 2020 2 1)) /\
  In ((2020%Z, 2%Z), 0) (sales_trend (aggregate t_gap [] [])).
Proof.
  split.
  - intros r Hr; simpl in Hr; destruct Hr as [<-|[<-|[]]]; vm_compute; congruence.
  - vm_compute. right; left; reflexivity.
Qed.

(** C1 (amended): a month appears in the monthly trend iff it lies between
    the months of two matching rows (inclusive), and its value is the
    revenue sum of the matching rows of that month, zero when there is
    none: gaps inside the range are zero-filled, months outside it absent. *)
Theorem monthly_trend_months (t : table) (categories locations : list string) (m : Z) (s : Q) :
  In (month_of_key m, s) (sales_trend (aggregate t categories locations)) <->
  (exists r1 r2, In r1 (filtered_view t categories locations) /\
                 In r2 (filtered_view t categories locations) /\
     (month_key (Transaction_Date r1) <= m <= month_key (Transaction_Date r2))%Z) /\
  s = Qsum (map Revenue (filter (fun r => Z.eqb (month_key (Transaction_Date r)) m)
                                (filtered_view t categories locations))).
Proof.
  rewrite aggregate_bundle. unfold bundle_of; cbn [sales_trend].
  rewrite rows_filter_frame. apply monthly_sales_spec.
Qed.

(** C2 (code_bug evidence): [pd.cut] without [include_lowest=True] leaves
    [tenure_months = 0] outside the bin labelled ["0-6"]; a customer of
    tenure 0 is absent from every tenure bucket. *)
Theorem tenure_zero_not_bucketed :
  cut tenure_bins tenure_labels 0 = None /\
  cut tenure_bins tenure_labels 6 = Some "0-6" /\
  cut tenure_bins tenure_labels 7 = Some "7-12" /\
  cut tenure_bins tenure_labels (-1) = None /\
  filtered_view t_gap ["B"] [] = [sample_row (Some "B") "Chicago" 2020 1 0 0 5] /\
  tenure_fig (aggregate t_gap ["B"] []) = map (fun b => (b, None)) tenure_labels.
Proof. vm_compute. repeat split; reflexivity. Qed.

(** ** Loading claims *)

Definition raw_negative : raw_row :=
  mkRaw "T1" "C1" (Some (mkDate 2020 1 15)) (Some (mkDate 2020 1 15)) (Some "Nest-USA")
        "Nest" "F" "chicago" 12 1 5 (-5) 0 10 "Used".

(** C3 (counterexample): a row with a negative online spend is loaded, with
    a negative [Total_Spend]. *)
Lemma C3_negative_spend_loaded :
  exists t, load [raw_negative] = Some t /\
            exists r, In r (t_rows t) /\ (Total_Spend r < 0)%Q.
Proof.
  eexists; split; [reflexivity|].
  eexists; split; [left; reflexivity|]. vm_compute; reflexivity.
Qed.

Definition dates_parse (x : raw_row) : bool :=
  match raw_Transaction_Date x, raw_Date x with Some _, Some _ => true | _, _ => false end.

Lemma load_rows_derived (raw : list raw_row) :
  forallb dates_parse raw = true ->
  Forall2 (fun x r => Total_Spend r = raw_Offline_Spend x + raw_Online_Spend x /\
                      Revenue r = raw_Quantity x * raw_Avg_Price x)
    raw
    (flat_map (fun x =>
      match raw_Transaction_Date x, raw_Date x with
      | Some td, Some d =>
          [mkRow (raw_Transaction_ID x) (raw_CustomerID x) td d
             (raw_Product_Category x) (raw_Product_Description x)
             (raw_Gender x) (title (raw_Location x)) (raw_Tenure_Months x)
             (raw_Quantity x) (raw_Avg_Price x) (raw_Online_Spend x)
             (raw_Offline_Spend x) (raw_Discount_pct x) (raw_Coupon_Status x)
             (raw_Offline_Spend x + raw_Online_Spend x)
             (raw_Quantity x * raw_Avg_Price x)]
      | _, _ => []
      end) raw).
Proof.
  induction raw as [|x raw IH]; simpl; intros H; [constructor|].
  apply andb_true_iff in H as [Hx Hr]. unfold dates_parse in Hx.
  destruct (raw_Transaction_Date x), (raw_Date x); try discriminate.
  simpl. constructor; [split; reflexivity|]. now apply IH.
Qed.

(** C3 (amended): on input whose cells parse (dates as dates, numeric
    columns as numbers, as [raw_row] types them) the load succeeds and every
    row carries [Total_Spend = Offline_Spend + Online_Spend] and
    [Revenue = Quantity * Avg_Price], with no check on their sign. *)
Theorem load_keeps_derived_columns (raw : list raw_row) :
  forallb dates_parse raw = true ->
  exists t, load raw = Some t /\
    Forall2 (fun x r => Total_Spend r = raw_Offline_Spend x + raw_Online_Spend x /\
                        Revenue r = raw_Quantity x * raw_Avg_Price x)
            raw (t_rows t).
Proof.
  intros H. unfold load. fold dates_parse. rewrite H.
  eexists; split; [reflexivity|]. simpl. now apply load_rows_derived.
Qed.

Definition raw_negative_price : raw_row :=
  mkRaw "T2" "C2" (Some (mkDate 2020 2 3)) (Some (mkDate 2020 2 3)) (Some "Apparel")
        "Tee" "M" "new york" 3 2 (-4) 7 1 0 "Clicked".

Lemma load_keeps_derived_columns_witness :
  forallb dates_parse [raw_negative; raw_negative_price] = true /\
  exists t, load [raw_negative; raw_negative_price] = Some t /\
    Forall2 (fun x r => Total_Spend r = raw_Offline_Spend x + raw_Online_Spend x /\
                        Revenue r = raw_Quantity x * raw_Avg_Price x)
            [raw_negative; raw_negative_price] (t_rows t).
Proof.
  assert (H : forallb dates_parse [raw_negative; raw_negative_price] = true) by reflexivity.
  split; [exact H|]. exact (load_keeps_derived_columns _ H).
Defined.

(** ** Empty views *)

Lemma sort_desc_zero {K} (ks : list K) :
  sort_desc (map (fun k => (k, 0)) ks) = map (fun k => (k, 0)) ks.
Proof.
  induction ks as [|k ks IH]; simpl; [reflexivity|].
  change (fold_right insert_desc [] (map (fun k => (k, 0)) ks)) with
         (sort_desc (map (fun k => (k, 0)) ks)).
  rewrite IH. destruct ks; reflexivity.
Qed.

(** C4 (counterexample): no row matches category "Zzz", yet the tenure and
    location outputs are not empty. *)
Lemma C4_empty_view_nonempty_outputs :
  filtered_view t_gap ["Zzz"] [] = [] /\
  tenure_fig (aggregate t_gap ["Zzz"] []) <> [] /\
  location_fig (aggregate t_gap ["Zzz"] []) <> [].
Proof. vm_compute. split; [reflexivity|split; discriminate]. Qed.

(** C4 (amended): on an empty filtered view the call does not fail; the
    trend, category, product, gender and coupon outputs and the preview are
    empty, the tenure and discount outputs list every bucket label with no
    value (NaN), and the location output lists every location of the loaded
    table with a zero sum. *)
Theorem empty_view_outputs (t : table) (categories locations : list string) :
  filtered_view t categories locations = [] ->
  aggregate t categories locations =
  mkBundle [] [] [] [] (map (fun b => (b, None)) tenure_labels)
           (map (fun k => (k, 0)) (t_loc_cats t)) []
           (map (fun b => (b, None)) discount_labels) [].
Proof.
  intros H. rewrite aggregate_bundle, filter_frame_initial, H.
  unfold bundle_of. rewrite location_spending_rows.
  cbn -[sort_desc]. rewrite sort_desc_zero. reflexivity.
Qed.

Lemma empty_view_outputs_witness :
  filtered_view t_gap ["Zzz"] [] = [] /\
  aggregate t_gap ["Zzz"] [] =
  mkBundle [] [] [] [] (map (fun b => (b, None)) tenure_labels)
           (map (fun k => (k, 0)) (t_loc_cats t_gap)) []
           (map (fun b => (b, None)) discount_labels) [].
Proof.
  assert (H : filtered_view t_gap ["Zzz"] [] = []) by reflexivity.
  split; [exact H|]. exact (empty_view_outputs t_gap ["Zzz"] [] H).
Defined.

(** ** The neutral filter *)

Lemma insert_uniq_in (x y : string) (l : list string) :
  x = y \/ In x l -> In x (insert_uniq y l).
Proof.
  induction l as [|z l IH]; simpl; intros H.
  - destruct H as [->|[]]; auto.
  - destruct (String.compare y z) eqn:E.
    + apply String.compare_eq_iff in E; subst z. simpl.
      destruct H as [->|[->|H]]; auto.
    + simpl. destruct H as [->|[->|H]]; auto.
    + simpl. destruct H as [->|[->|H]]; auto.
Qed.

Lemma sort_uniq_in (x : string) (l : list string) : In x l -> In x (sort_uniq l).
Proof.
  induction l as [|y l IH]; simpl; [intros []|].
  intros [->|H]; apply insert_uniq_in; auto.
Qed.

Lemma filter_all_true {A} (p : A -> bool) (l : list A) :
  (forall x, In x l -> p x = true) -> filter p l = l.
Proof.
  induction l as [|a l IH]; simpl; intros H; [reflexivity|].
  rewrite (H a (or_introl eq_refl)), IH; auto.
Qed.

Lemma match_filter_id (cs : list string) (p : list string -> row -> bool) (l : list row) :
  filter (p cs) l = l -> match cs with [] => l | _ => filter (p cs) l end = l.
Proof. destruct cs; auto. Qed.

Definition t_missing_cat : table :=
  mkTable [sample_row (Some "A") "Chicago" 2020 1 7 5 5;
           sample_row None "Chicago" 2020 2 7 5 5]
          ["Chicago"].

(** C5 (counterexample): a row with a missing category is kept by the empty
    filter and dropped by the filter that selects every dropdown option. *)
Lemma C5_missing_category_dropped :
  aggregate t_missing_cat [] [] <>
  aggregate t_missing_cat (category_options t_missing_cat) (location_options t_missing_cat).
Proof.
  intros H. apply (f_equal (fun b => List.length (table_data b))) in H.
  vm_compute in H. discriminate.
Qed.

(** C5 (amended): when every row has a product category, the empty filter
    and the filter selecting every category and every location option give
    the same outputs. *)
Theorem all_options_filter_neutral (t : table) :
  (forall r, In r (t_rows t) -> Product_Category r <> None) ->
  aggregate t [] [] = aggregate t (category_options t) (location_options t).
Proof.
  intros Hcat. rewrite !aggregate_bundle, !filter_frame_initial.
  assert (Hv : filtered_view t (category_options t) (location_options t) = t_rows t).
  { unfold filtered_view.
    rewrite (match_filter_id (category_options t) category_isin (t_rows t)).
    - apply match_filter_id, filter_all_true. intros r Hr.
      unfold location_isin. apply existsb_exists. exists (Location r).
      split; [|apply String.eqb_refl].
      apply sort_uniq_in, in_map, Hr.
    - apply filter_all_true. intros r Hr. unfold category_isin.
      destruct (Product_Category r) as [c|] eqn:Ec; [|now destruct (Hcat r Hr)].
      apply existsb_exists. exists c. split; [|apply String.eqb_refl].
      apply sort_uniq_in, in_flat_map. exists r. rewrite Ec. simpl; auto. }
  now rewrite Hv.
Qed.

Lemma all_options_filter_neutral_witness :
  (forall r, In r (t_rows t_gap) -> Product_Category r <> None) /\
  aggregate t_gap [] [] = aggregate t_gap (category_options t_gap) (location_options t_gap).
Proof.
  assert (H : forall r, In r (t_rows t_gap) -> Product_Category r <> None).
  { intros r Hr. simpl in Hr. destruct Hr as [<-|[<-|[]]]; discriminate. }
  split; [exact H|]. exact (all_options_filter_neutral t_gap H).
Defined.

(** ** Discount buckets *)

Definition keep_rows (p : row -> bool) (t : table) : table :=
  mkTable (filter p (t_rows t)) (t_loc_cats t).

Lemma filter_comm {A} (p q : A -> bool) (l : list A) :
  filter q (filter p l) = filter p (filter q l).
Proof.
  induction l as [|a l IH]; simpl; [reflexivity|].
  destruct (p a) eqn:Ep, (q a) eqn:Eq; simpl; rewrite ?Ep, ?Eq, IH; reflexivity.
Qed.

Lemma filter_subsumed {A} (p q : A -> bool) (l : list A) :
  (forall x, p x = false -> q x = false) -> filter q (filter p l) = filter q l.
Proof.
  intros H. induction l as [|a l IH]; simpl; [reflexivity|].
  destruct (p a) eqn:Ep; simpl; rewrite IH; [reflexivity|].
  now rewrite (H a Ep).
Qed.

Lemma filtered_view_keep (p : row -> bool) (t : table) (categories locations : list string) :
  filtered_view (keep_rows p t) categories locations =
  filter p (filtered_view t categories locations).
Proof.
  unfold filtered_view, keep_rows; simpl.
  destruct categories as [|c cs], locations as [|l ls].
  - reflexivity.
  - apply filter_comm.
  - apply filter_comm.
  - rewrite (filter_comm p (category_isin _)). apply filter_comm.
Qed.

Lemma map_filter_map {A B C} (h : B -> C) (q : B -> bool) (g : A -> B) (l : list A) :
  map h (filter q (map g l)) = map (fun x => h (g x)) (filter (fun x => q (g x)) l).
Proof. induction l as [|a l IH]; simpl; [reflexivity|]. destruct (q (g a)); simpl; now rewrite IH. Qed.

Definition in_bucket (bins : list bound) (labels : list string) (field : row -> Q)
    (b : string) (r : row) : bool :=
  value_eqb (label_value (cut bins labels (field r))) (VStr b).

(** The discount output: the mean revenue of the matching rows of each bin. *)
Lemma discount_fig_rows (t : table) (categories locations : list string) :
  discount_fig (aggregate t categories locations) =
  map (fun b => (b, Qmean (map Revenue
         (filter (in_bucket discount_bins discount_labels Discount_pct b)
                 (filtered_view t categories locations)))))
      discount_labels.
Proof.
  rewrite aggregate_bundle, filter_frame_initial.
  unfold bundle_of, label_mean, set_column; cbn [fr_rows discount_fig].
  apply map_ext; intros b. f_equal. f_equal.
  rewrite !map_map, map_filter_map. reflexivity.
Qed.

Lemma discount_fig_keep (p : row -> bool) (t : table) (categories locations : list string) :
  (forall r, p r = false -> cut discount_bins discount_labels (Discount_pct r) = None) ->
  discount_fig (aggregate t categories locations) =
  discount_fig (aggregate (keep_rows p t) categories locations).
Proof.
  intros Hp. rewrite !discount_fig_rows, filtered_view_keep.
  apply map_ext; intros b. rewrite filter_subsumed; [reflexivity|].
  intros r Hr. unfold in_bucket. now rewrite (Hp r Hr).
Qed.

Lemma Qle_bool_true (x q : Q) : x <= q -> Qle_bool x q = true.
Proof. apply Qle_bool_iff. Qed.

Lemma Qle_bool_false (x q : Q) : q < x -> Qle_bool x q = false.
Proof.
  intros H. destruct (Qle_bool x q) eqn:E; [|reflexivity].
  apply Qle_bool_iff in E. lra.
Qed.

Lemma cut_discount_nonpositive (x : Q) :
  x <= 0 -> cut discount_bins discount_labels x = None.
Proof.
  intros H. unfold cut, discount_bins, discount_labels, above, below.
  rewrite (Qle_bool_true x 0), (Qle_bool_true x 5), (Qle_bool_true x 10),
          (Qle_bool_true x 15), (Qle_bool_true x 20) by lra.
  reflexivity.
Qed.

Lemma cut_discount_above_100 (x : Q) :
  100 < x -> cut discount_bins discount_labels x = None.
Proof.
  intros H. unfold cut, discount_bins, discount_labels, above, below.
  rewrite (Qle_bool_false x 5), (Qle_bool_false x 10), (Qle_bool_false x 15),
          (Qle_bool_false x 20), (Qle_bool_false x 100) by lra.
  rewrite !andb_false_r. reflexivity.
Qed.

(** C6: discount 0 is in no bucket, 5 is in "0-5%", 5.1 in "5-10%"; every
    row with [discount_pct <= 0] is in no bucket and removing all such rows
    from the table leaves the discount output unchanged, for every filter. *)
Theorem discount_nonpositive_excluded :
  cut discount_bins discount_labels 0 = None /\
  cut discount_bins discount_labels 5 = Some "0-5%" /\
  cut discount_bins discount_labels (51 # 10) = Some "5-10%" /\
  (forall x, x <= 0 -> cut discount_bins discount_labels x = None) /\
  (forall t categories locations,
     discount_fig (aggregate t categories locations) =
     discount_fig (aggregate (keep_rows (fun r => negb (Qle_bool (Discount_pct r) 0)) t)
                             categories locations)).
Proof.
  split; [reflexivity|]. split; [reflexivity|]. split; [reflexivity|].
  split; [exact cut_discount_nonpositive|].
  intros t categories locations. apply discount_fig_keep.
  intros r Hr. apply cut_discount_nonpositive.
  apply negb_false_iff, Qle_bool_iff in Hr. exact Hr.
Qed.

(** C10: the bucket "20%+" holds exactly the discounts in (20, 100]; a
    discount above 100 is in no bucket, and removing all such rows leaves
    the discount output unchanged, for every filter. *)
Theorem discount_above_100_excluded :
  (forall x, cut discount_bins discount_labels x = Some "20%+" <-> 20 < x /\ x <= 100) /\
  (forall x, 100 < x -> cut discount_bins discount_labels x = None) /\
  (forall t categories locations,
     discount_fig (aggregate t categories locations) =
     discount_fig (aggregate (keep_rows (fun r => Qle_bool (Discount_pct r) 100) t)
                             categories locations)).
Proof.
  split; [|split].
  - intros x. unfold cut, discount_bins, discount_labels, above, below.
    split.
    + repeat match goal with
             | |- context [if ?b then _ else _] => destruct b eqn:?
             end; intros H; try discriminate.
      match goal with
      | E : (negb (Qle_bool x 20) && Qle_bool x 100)%bool = true |- _ =>
          apply andb_true_iff in E as [E1 E2]
      end.
      apply negb_true_iff in E1.
      apply Qle_bool_iff in E2. split; [|exact E2].
      apply Qnot_le_lt. intros E3. apply Qle_bool_iff in E3. congruence.
    + intros [H1 H2].
      rewrite (Qle_bool_false x 0), (Qle_bool_false x 5), (Qle_bool_false x 10),
              (Qle_bool_false x 15), (Qle_bool_false x 20), (Qle_bool_true x 100) by lra.
      reflexivity.
  - exact cut_discount_above_100.
  - intros t categories locations. apply discount_fig_keep.
    intros r Hr. apply cut_discount_above_100.
    apply Qnot_le_lt. intros E. apply Qle_bool_iff in E. congruence.
Qed.

(** ** Sorted outputs *)

(** C7 (counterexample): categories B (first in the input) and A have the
    same revenue; the output lists A first. *)
Lemma C7_ties_in_key_order :
  map Product_Category (filtered_view t_gap [] []) = [Some "B"; Some "A"] /\
  category_fig (aggregate t_gap [] []) = [("A", 5); ("B", 5)].
Proof. vm_compute. split; reflexivity. Qed.

(** C7 (amended): the category-revenue and location-spending outputs are
    sorted in descending order of their sums and are reorderings of the
    per-group sums (every category present in the filtered rows, every
    location of the loaded table). *)
Theorem category_location_sorted (t : table) (categories locations : list string) :
  Sorted desc_by_value (category_fig (aggregate t categories locations)) /\
  Permutation (category_fig (aggregate t categories locations))
              (group_sum Product_Category Revenue (filtered_view t categories locations)) /\
  Sorted desc_by_value (location_fig (aggregate t categories locations)) /\
  Permutation (location_fig (aggregate t categories locations))
              (map (fun k => (k, Qsum (map Total_Spend
                    (filter (fun r => String.eqb (Location r) k)
                            (filtered_view t categories locations)))))
                   (t_loc_cats t)).
Proof.
  rewrite aggregate_bundle. unfold bundle_of; cbn [category_fig location_fig].
  rewrite location_spending_rows, rows_of_set_column, rows_filter_frame.
  replace (loc_cats (set_column "Tenure_Group" tenure_group
                       (filter_frame categories locations (initial_frame t))))
    with (t_loc_cats t) by (now rewrite filter_frame_initial).
  unfold category_revenue.
  split; [apply sort_desc_sorted|]. split; [apply sort_desc_perm|].
  split; [apply sort_desc_sorted|apply sort_desc_perm].
Qed.

(** ** Row preview *)

(** The Transaction Details table as the layout builds it: its declared
    columns [df.columns] (line 190) and its initial data
    [df.head(100).to_dict('records')] (line 191). *)
Definition table_columns (t : table) : list string := columns (initial_frame t).
Definition initial_table_data (t : table) : list record := preview (initial_frame t).

(** C8 (code_bug evidence): the initial data of the table has exactly its
    declared columns, but the records the callback sends (line 289) carry
    the two bucket columns that lines 261 and 280 wrote into [filtered_df]. *)
Theorem preview_bucket_columns_leak :
  map (fun x => map fst x) (initial_table_data t_gap) =
  map (fun _ => table_columns t_gap) (t_rows t_gap) /\
  map (fun x => map fst x) (table_data (aggregate t_gap [] [])) =
  map (fun _ => (table_columns t_gap ++ ["Tenure_Group"; "Discount_Group"])%list)
      (filtered_view t_gap [] []).
Proof. vm_compute. split; reflexivity. Qed.

(** ** The source table *)

(** C9: the callback leaves the frame of [df] as it was: the derived
    columns are written to the copy (or to the frame a mask produced). *)
Theorem update_graphs_preserves_source (st : store) (df : nat) (f : frame)
    (categories locations : list string) :
  nth_error st df = Some f ->
  nth_error (snd (update_graphs df categories locations st)) df = Some f.
Proof. intros H. exact (proj2 (update_graphs_spec df categories locations st f H)). Qed.

Lemma update_graphs_preserves_source_witness :
  nth_error [initial_frame t_gap] 0 = Some (initial_frame t_gap) /\
  nth_error (snd (update_graphs 0 [] [] [initial_frame t_gap])) 0 = Some (initial_frame t_gap).
Proof.
  split; [reflexivity|].
  apply (update_graphs_preserves_source [initial_frame t_gap] 0 (initial_frame t_gap) [] []).
  reflexivity.
Defined.

(** * Further properties of the dashboard code *)

(** ** Sorted distinct keys *)

Definition slt (a b : string) : Prop := String.compare a b = Lt.

Lemma slt_trans (a b c : string) : slt a b -> slt b c -> slt a c.
Proof.
  unfold slt. intros H1 H2.
  apply (String_as_OT.cmp_lt a c).
  apply (proj1 (String_as_OT.cmp_lt a b)) in H1.
  apply (proj1 (String_as_OT.cmp_lt b c)) in H2.
  eapply String_as_OT.lt_trans; eauto.
Qed.

Lemma slt_irrefl (a : string) : ~ slt a a.
Proof.
  unfold slt. intros H. assert (E : String.compare a a = Eq).
  { apply String_as_OT.cmp_eq. reflexivity. }
  congruence.
Qed.

Lemma insert_uniq_hd (x y : string) (l : list string) :
  HdRel slt y l -> slt y x -> HdRel slt y (insert_uniq x l).
Proof.
  intros Hh Hyx. destruct l as [|z l]; simpl; [now constructor|].
  inversion Hh; subst.
  destruct (String.compare x z); constructor; auto.
Qed.

Lemma insert_uniq_sorted (x : string) (l : list string) :
  Sorted slt l -> Sorted slt (insert_uniq x l).
Proof.
  induction l as [|y l IH]; intros Hs; simpl; [repeat constructor|].
  destruct (String.compare x y) eqn:E.
  - exact Hs.
  - constructor; [exact Hs|now constructor].
  - inversion Hs as [|? ? Hs' Hh]; subst. constructor; [now apply IH|].
    apply insert_uniq_hd; [exact Hh|]. unfold slt.
    now rewrite String.compare_antisym, E.
Qed.

Lemma insert_uniq_in_iff (x y : string) (l : list string) :
  In x (insert_uniq y l) <-> x = y \/ In x l.
Proof.
  split; [|apply insert_uniq_in].
  induction l as [|z l IH]; simpl; intros H.
  - destruct H as [->|[]]; auto.
  - destruct (String.compare y z) eqn:E; simpl in H.
    + right; exact H.
    + destruct H as [->|H]; auto.
    + destruct H as [->|H]; auto. destruct (IH H); auto.
Qed.

Lemma sort_uniq_in_iff (x : string) (l : list string) : In x (sort_uniq l) <-> In x l.
Proof.
  split; [|apply sort_uniq_in].
  induction l as [|y l IH]; simpl; [intros []|].
  intros H. apply insert_uniq_in_iff in H as [->|H]; auto.
Qed.

Lemma sort_uniq_strict (l : list string) : StronglySorted slt (sort_uniq l).
Proof.
  apply Sorted_StronglySorted; [intros a b c; apply slt_trans|].
  induction l; simpl; [constructor|]. now apply insert_uniq_sorted.
Qed.

Lemma strongly_sorted_nodup (l : list string) : StronglySorted slt l -> NoDup l.
Proof.
  induction 1 as [|a l _ IH Hall]; constructor; auto.
  intros Hin. rewrite Forall_forall in Hall.
  exact (slt_irrefl a (Hall a Hin)).
Qed.

Lemma sort_uniq_nodup (l : list string) : NoDup (sort_uniq l).
Proof. apply strongly_sorted_nodup, sort_uniq_strict. Qed.

(** The two dropdowns (lines 75 and 83) list, in strictly increasing order
    (so without duplicates), exactly the categories present in the table
    (missing ones left out) and exactly its locations. *)
Theorem filter_options_spec (t : table) :
  StronglySorted slt (category_options t) /\
  (forall c, In c (category_options t) <->
             exists r, In r (t_rows t) /\ Product_Category r = Some c) /\
  StronglySorted slt (location_options t) /\
  (forall l, In l (location_options t) <-> exists r, In r (t_rows t) /\ Location r = l).
Proof.
  unfold category_options, location_options.
  split; [apply sort_uniq_strict|]. split.
  - intros c. rewrite sort_uniq_in_iff, in_flat_map. split.
    + intros [r [Hr Hc]]. exists r; split; [exact Hr|].
      destruct (Product_Category r); simpl in Hc; [|destruct Hc].
      destruct Hc as [->|[]]; reflexivity.
    + intros [r [Hr Hc]]. exists r; split; [exact Hr|]. rewrite Hc; simpl; auto.
  - split; [apply sort_uniq_strict|].
    intros l. rewrite sort_uniq_in_iff, in_map_iff. firstorder.
Qed.

(** ** Group sums add up *)

Lemma Qsum_map_ext {A} (f g : A -> Q) (K : list A) :
  (forall k, In k K -> f k == g k) -> Qsum (map f K) == Qsum (map g K).
Proof.
  induction K as [|k K IH]; simpl; intros H; [reflexivity|].
  rewrite (H k (or_introl eq_refl)), IH; [reflexivity|]. auto.
Qed.

Lemma Qsum_map_plus {A} (f g : A -> Q) (K : list A) :
  Qsum (map (fun k => f k + g k) K) == Qsum (map f K) + Qsum (map g K).
Proof. induction K as [|k K IH]; simpl; [reflexivity|]. rewrite IH. ring. Qed.

Lemma Qsum_perm (l l' : list Q) : Permutation l l' -> Qsum l == Qsum l'.
Proof.
  induction 1; simpl.
  - reflexivity.
  - now rewrite IHPermutation.
  - ring.
  - now rewrite IHPermutation1.
Qed.

Lemma Qsum_filter_cons {A} (m : A -> Q) (f : A -> bool) (r : A) (rows : list A) :
  Qsum (map m (filter f (r :: rows))) ==
  (if f r then m r else 0) + Qsum (map m (filter f rows)).
Proof. simpl. destruct (f r); simpl; ring. Qed.

(** Summing the per-group sums gives the sum over the grouped rows, when
    each row is counted by the groups exactly as [p] says. *)
Lemma partition_sum {A K} (sel : K -> A -> bool) (p : A -> bool) (m : A -> Q)
    (Ks : list K) (rows : list A) :
  (forall r, In r rows ->
     Qsum (map (fun k => if sel k r then m r else 0) Ks) == if p r then m r else 0) ->
  Qsum (map (fun k => Qsum (map m (filter (sel k) rows))) Ks) ==
  Qsum (map m (filter p rows)).
Proof.
  induction rows as [|r rows IH]; intros H.
  - simpl. clear H. induction Ks; simpl; [reflexivity|]. rewrite IHKs. ring.
  - rewrite (Qsum_map_ext _ (fun k => (if sel k r then m r else 0) +
                                      Qsum (map m (filter (sel k) rows))))
      by (intros k _; apply Qsum_filter_cons).
    rewrite Qsum_map_plus, Qsum_filter_cons, (H r (or_introl eq_refl)), IH;
      [reflexivity|].
    intros r' Hr'. apply H. now right.
Qed.

Section Indicator.
Context {A : Type} (eqb : A -> A -> bool).
Hypothesis eqb_iff : forall a b, eqb a b = true <-> a = b.

Lemma Qsum_indicator_out (a : A) (v : Q) (K : list A) :
  ~ In a K -> Qsum (map (fun k => if eqb a k then v else 0) K) == 0.
Proof.
  induction K as [|k K IH]; simpl; intros Hn; [reflexivity|].
  destruct (eqb a k) eqn:E.
  - apply eqb_iff in E. subst. exfalso; auto.
  - rewrite IH by auto. ring.
Qed.

Lemma Qsum_indicator_in (a : A) (v : Q) (K : list A) :
  NoDup K -> In a K -> Qsum (map (fun k => if eqb a k then v else 0) K) == v.
Proof.
  induction 1 as [|k K Hk Hnd IH]; simpl; intros Hin; [destruct Hin|].
  destruct (eqb a k) eqn:E.
  - apply eqb_iff in E. subst. rewrite Qsum_indicator_out by exact Hk. ring.
  - destruct Hin as [Hka|Hin].
    + subst a. assert (eqb k k = true) by (now apply eqb_iff). congruence.
    + rewrite IH by exact Hin. ring.
Qed.
End Indicator.

(** Sums over string-keyed groups ([groupby(key)[m].sum()]) add up to the
    sum over the rows whose key is not missing. *)
Lemma group_sum_total (key : row -> option string) (m : row -> Q) (rows : list row) :
  Qsum (map snd (group_sum key m rows)) ==
  Qsum (map m (filter (fun r => match key r with Some _ => true | None => false end) rows)).
Proof.
  unfold group_sum, group_rows. rewrite map_map; cbn [snd].
  apply (partition_sum (fun k r => match key r with Some k' => String.eqb k' k | None => false end)).
  intros r Hr. destruct (key r) as [a|] eqn:Ek.
  - apply (Qsum_indicator_in String.eqb String.eqb_eq).
    + apply sort_uniq_nodup.
    + apply sort_uniq_in, in_flat_map. exists r. rewrite Ek. simpl; auto.
  - clear. induction (keys_of key rows); simpl; [reflexivity|]. rewrite IHl. ring.
Qed.

(** The category-revenue output (line 240) adds up to the revenue of the
    filtered rows that have a category. *)
Theorem category_revenue_total (t : table) (categories locations : list string) :
  Qsum (map snd (category_fig (aggregate t categories locations))) ==
  Qsum (map Revenue (filter (fun r => match Product_Category r with Some _ => true | None => false end)
                            (filtered_view t categories locations))).
Proof.
  rewrite aggregate_bundle; unfold bundle_of; cbn [category_fig].
  rewrite rows_filter_frame. unfold category_revenue.
  rewrite (Qsum_perm _ _ (Permutation_map snd (sort_desc_perm _))).
  apply group_sum_total.
Qed.

Lemma filtered_view_incl (t : table) (categories locations : list string) (r : row) :
  In r (filtered_view t categories locations) -> In r (t_rows t).
Proof.
  unfold filtered_view.
  destruct categories, locations; rewrite ?filter_In; tauto.
Qed.

Lemma load_loc_cats (raw : list raw_row) (t : table) :
  load raw = Some t -> t_loc_cats t = sort_uniq (map Location (t_rows t)).
Proof.
  unfold load. destruct (forallb _ raw); [|discriminate].
  intros H; injection H as <-. reflexivity.
Qed.

(** On a loaded table, the location output (line 268) adds up to the total
    spend of the filtered rows: the location categories fixed at load time
    (line 24) cover every row. *)
Theorem location_spending_total (raw : list raw_row) (t : table)
    (categories locations : list string) :
  load raw = Some t ->
  Qsum (map snd (location_fig (aggregate t categories locations))) ==
  Qsum (map Total_Spend (filtered_view t categories locations)).
Proof.
  intros Hl.
  destruct (category_location_sorted t categories locations) as [_ [_ [_ Hp]]].
  rewrite (Qsum_perm _ _ (Permutation_map snd Hp)), map_map; cbn [snd].
  transitivity (Qsum (map Total_Spend (filter (fun _ => true)
                                             (filtered_view t categories locations))));
    [|now rewrite filter_all_true].
  apply (partition_sum (fun k r => String.eqb (Location r) k)).
  intros r Hr. apply (Qsum_indicator_in String.eqb String.eqb_eq).
  - rewrite (load_loc_cats raw t Hl). apply sort_uniq_nodup.
  - rewrite (load_loc_cats raw t Hl). apply sort_uniq_in, in_map.
    now apply (filtered_view_incl t categories locations).
Qed.

Definition sample_locations : list raw_row :=
  [mkRaw "T1" "C1" (Some (mkDate 2020 1 15)) (Some (mkDate 2020 1 15)) (Some "Nest-USA")
         "Nest" "F" "chicago" 12 1 5 7 3 10 "Used";
   mkRaw "T2" "C2" (Some (mkDate 2020 2 3)) (Some (mkDate 2020 2 3)) (Some "Apparel")
         "Tee" "M" "new york" 3 2 4 6 1 0 "Clicked";
   mkRaw "T3" "C3" (Some (mkDate 2020 3 9)) (Some (mkDate 2020 3 9)) (Some "Nest-USA")
         "Cam" "F" "California" 20 1 9 2 8 5 "Not Used"].

(** Three locations, filtered to the Nest-USA category: New York keeps its
    entry with total 0, and the entries add up to the filtered spend. *)
Lemma location_spending_total_witness :
  exists t, load sample_locations = Some t /\
  map fst (location_fig (aggregate t ["Nest-USA"] [])) = ["California"; "Chicago"; "New York"] /\
  map snd (location_fig (aggregate t ["Nest-USA"] [])) = [10; 10; 0] /\
  Qsum (map snd (location_fig (aggregate t ["Nest-USA"] []))) ==
  Qsum (map Total_Spend (filtered_view t ["Nest-USA"] [])).
Proof.
  eexists. split; [reflexivity|]. split; [vm_compute; reflexivity|].
  split; [vm_compute; reflexivity|].
  apply (location_spending_total sample_locations). reflexivity.
Defined.

(** ** Top products (line 246) *)

Lemma desc_by_value_trans {K} (a b c : K * Q) :
  desc_by_value a b -> desc_by_value b c -> desc_by_value a c.
Proof. unfold desc_by_value. intros; eapply Qle_trans; eauto. Qed.

Lemma StronglySorted_app_l {A} (R : A -> A -> Prop) (l1 l2 : list A) :
  StronglySorted R (l1 ++ l2) -> StronglySorted R l1.
Proof.
  induction l1 as [|a l1 IH]; simpl; intros H; [constructor|].
  inversion H as [|? ? H1 H2]; subst. constructor; [now apply IH|].
  rewrite Forall_forall in *. intros x Hx. apply H2, in_or_app; auto.
Qed.

Lemma StronglySorted_app_between {A} (R : A -> A -> Prop) (l1 l2 : list A) :
  StronglySorted R (l1 ++ l2) -> forall a b, In a l1 -> In b l2 -> R a b.
Proof.
  induction l1 as [|x l1 IH]; simpl; intros H a b Ha Hb; [destruct Ha|].
  inversion H as [|? ? H1 H2]; subst. destruct Ha as [->|Ha].
  - rewrite Forall_forall in H2. apply H2, in_or_app; auto.
  - eapply IH; eauto.
Qed.

(** The top-products output has at most ten entries, sorted by decreasing
    quantity, and every product group it leaves out sold no more than any
    product it lists. *)
Theorem top_products_spec (t : table) (categories locations : list string) :
  let top := products_fig (aggregate t categories locations) in
  let groups := group_sum (fun r => Some (Product_Description r)) Quantity
                          (filtered_view t categories locations) in
  (List.length top <= 10)%nat /\
  Sorted desc_by_value top /\
  (forall x y, In x top -> In y groups -> ~ In y top -> (snd y <= snd x)%Q).
Proof.
  intros top groups.
  assert (Etop : top = firstn 10 (sort_desc groups)).
  { unfold top, groups. rewrite aggregate_bundle; unfold bundle_of; cbn [products_fig].
    now rewrite rows_filter_frame. }
  assert (Hss : StronglySorted desc_by_value (sort_desc groups)).
  { apply Sorted_StronglySorted; [intros a b c; apply desc_by_value_trans|].
    apply sort_desc_sorted. }
  rewrite <- (firstn_skipn 10 (sort_desc groups)) in Hss.
  split; [rewrite Etop, length_firstn; lia|]. split.
  - rewrite Etop. apply StronglySorted_Sorted. eapply StronglySorted_app_l; eauto.
  - intros x y Hx Hy Hny. rewrite Etop in Hx, Hny.
    apply (Permutation_in _ (Permutation_sym (sort_desc_perm groups))) in Hy.
    rewrite <- (firstn_skipn 10 (sort_desc groups)) in Hy.
    apply in_app_or in Hy as [Hy|Hy]; [contradiction|].
    exact (StronglySorted_app_between _ _ _ Hss x y Hx Hy).
Qed.

(** ** The filter (lines 225-231) *)


(** Filtering then aggregating is aggregating the pre-filtered table with no
    filter: the outputs depend on the filter only through the kept rows. *)
Theorem aggregate_prefiltered (t : table) (categories locations : list string) :
  aggregate t categories locations =
  aggregate (mkTable (filtered_view t categories locations) (t_loc_cats t)) [] [].
Proof. rewrite !aggregate_bundle, !filter_frame_initial. reflexivity. Qed.

(** ** Successive callbacks *)

(** A callback run after another one, on the store that one left, gives the
    outputs it gives on the original store: the frames created by earlier
    calls do not influence later ones. *)
Theorem callbacks_independent (st : store) (df : nat) (f : frame)
    (categories locations categories' locations' : list string) :
  nth_error st df = Some f ->
  fst (update_graphs df categories locations
         (snd (update_graphs df categories' locations' st))) =
  fst (update_graphs df categories locations st).
Proof.
  intros H.
  destruct (update_graphs_spec df categories' locations' st f H) as [_ H2].
  rewrite (proj1 (update_graphs_spec df categories locations _ f H2)).
  now rewrite (proj1 (update_graphs_spec df categories locations st f H)).
Qed.

Lemma callbacks_independent_witness :
  nth_error [initial_frame t_gap] 0 = Some (initial_frame t_gap) /\
  fst (update_graphs 0 ["A"] []
         (snd (update_graphs 0 [] ["Chicago"] [initial_frame t_gap]))) =
  fst (update_graphs 0 ["A"] [] [initial_frame t_gap]).
Proof.
  split; [reflexivity|].
  apply (callbacks_independent [initial_frame t_gap] 0 (initial_frame t_gap)).
  reflexivity.
Defined.

(** ** Bucket totality and exclusions *)

Lemma Qle_bool_false_lt (x q : Q) : Qle_bool x q = false -> q < x.
Proof.
  intros H. apply Qnot_le_lt. intros Hle. apply Qle_bool_iff in Hle. congruence.
Qed.

Ltac decide_bins x :=
  repeat (match goal with
          | |- context [Qle_bool x ?q] => let E := fresh "E" in destruct (Qle_bool x q) eqn:E
          end; simpl);
  repeat match goal with
         | H : Qle_bool _ _ = true |- _ => apply Qle_bool_iff in H
         | H : Qle_bool _ _ = false |- _ => apply Qle_bool_false_lt in H
         end.

(** Every positive tenure falls in one of the five tenure buckets, and
    every discount in (0, 100] in one of the five discount buckets. *)
Theorem buckets_total :
  (forall x, 0 < x -> exists b, cut tenure_bins tenure_labels x = Some b /\ In b tenure_labels) /\
  (forall x, 0 < x -> x <= 100 ->
     exists b, cut discount_bins discount_labels x = Some b /\ In b discount_labels).
Proof.
  split.
  - intros x Hx. unfold cut, tenure_bins, tenure_labels, above, below.
    rewrite (Qle_bool_false x 0) by exact Hx. simpl.
    decide_bins x; try (eexists; split; [reflexivity|simpl; tauto]).
  - intros x Hx H100. unfold cut, discount_bins, discount_labels, above, below.
    rewrite (Qle_bool_false x 0) by exact Hx. simpl.
    decide_bins x; try (eexists; split; [reflexivity|simpl; tauto]); lra.
Qed.

(** The tenure output: the mean total spend of the matching rows of each bin. *)
Lemma tenure_fig_rows (t : table) (categories locations : list string) :
  tenure_fig (aggregate t categories locations) =
  map (fun b => (b, Qmean (map Total_Spend
         (filter (in_bucket tenure_bins tenure_labels Tenure_Months b)
                 (filtered_view t categories locations)))))
      tenure_labels.
Proof.
  rewrite aggregate_bundle, filter_frame_initial.
  unfold bundle_of, label_mean, set_column; cbn [fr_rows tenure_fig].
  apply map_ext; intros b. f_equal. f_equal.
  rewrite !map_map, map_filter_map. reflexivity.
Qed.

Lemma cut_tenure_nonpositive (x : Q) : x <= 0 -> cut tenure_bins tenure_labels x = None.
Proof.
  intros H. unfold cut, tenure_bins, tenure_labels, above, below.
  rewrite (Qle_bool_true x 0), (Qle_bool_true x 6), (Qle_bool_true x 12),
          (Qle_bool_true x 24), (Qle_bool_true x 36) by lra.
  reflexivity.
Qed.

(** Rows with a tenure of 0 months or less are in no tenure bucket: removing
    them from the table leaves the tenure output unchanged, for every
    filter. *)
Theorem tenure_nonpositive_ignored (t : table) (categories locations : list string) :
  tenure_fig (aggregate t categories locations) =
  tenure_fig (aggregate (keep_rows (fun r => negb (Qle_bool (Tenure_Months r) 0)) t)
                        categories locations).
Proof.
  rewrite !tenure_fig_rows, filtered_view_keep.
  apply map_ext; intros b. rewrite filter_subsumed; [reflexivity|].
  intros r Hr. unfold in_bucket. rewrite cut_tenure_nonpositive; [reflexivity|].
  apply negb_false_iff, Qle_bool_iff in Hr. exact Hr.
Qed.
